(** * create_latent_dataset_from_checkpoint: a shallow embedding

    The script [experiments/downstream/create_latent_dataset_from_checkpoint.py]
    is one linear function.  It reads and writes two OmegaConf dictionaries
    (the invocation's [conf] and the training configuration [enf_cfg] loaded
    from the checkpoint), computes a coordinate grid, and calls into external
    libraries.  The embedding keeps

    - configurations as trees whose inner nodes are finite maps from keys,
    - Python's dynamic values with their truthiness,
    - exceptions as an error type,
    - the calls into external libraries as a trace of events, their results
      being supplied by a [world].

    Three idealisations are made, and the properties that depend on one say
    so.  Arithmetic of the array library is taken over the rationals, where
    the library computes in [float32].  A configuration is a tree of stored
    values: a stored string that holds [${...}] is an interpolation, which
    OmegaConf computes from the rest of the tree when the field is read,
    and the embedding reads such a field as the stored string.  A call into
    a collaborating module returns; only [OmegaConf.load] may raise. *)

From Stdlib Require Import QArith.
From stdpp Require Import gmap strings list fin_maps pretty.

Set Warnings "-register-all".
#[local] Open Scope string_scope.
#[local] Open Scope list_scope.

(** * Definitions *)

(** ** Configuration values *)

(** Leaves of a YAML / OmegaConf configuration.  [VPath] is a
    [pathlib.Path] stored in a configuration node.  Two kinds of strings
    are special to OmegaConf: the string [???] marks a mandatory value
    that is missing, and a string that holds [${...}] is an
    interpolation. *)
Inductive value :=
| VNone
| VBool (b : bool)
| VInt (z : Z)
| VFloat (q : Q)
| VStr (s : string)
| VPath (s : string)
| VList (l : list value).

(** A configuration: a leaf, or a dictionary of sub-configurations
    ([DictConfig]). *)
Inductive cfg :=
| Leaf (v : value)
| Node (m : gmap string cfg).

Definition path := list string.

(** Python truthiness, as used by [assert x], [if not x] and [a if x else b]. *)
Definition truthy_value (v : value) : bool :=
  match v with
  | VNone => false
  | VBool b => b
  | VInt z => negb (z =? 0)%Z
  | VFloat q => negb (Qeq_bool q 0)
  | VStr s => negb (String.eqb s "")
  | VPath _ => true
  | VList l => negb (Nat.eqb (length l) 0)
  end.

Definition truthy (c : cfg) : bool :=
  match c with
  | Leaf v => truthy_value v
  | Node m => negb (Nat.eqb (size m) 0)
  end.

(** Attribute access [c.k1.k2...]: every step but the last must land on a
    dictionary that has the key.  The result is the stored node; it is what
    OmegaConf returns where no node on the way is an interpolation or the
    missing marker (see [plain]). *)
Fixpoint select (p : path) (c : cfg) : option cfg :=
  match p with
  | [] => Some c
  | k :: p' =>
      match c with
      | Node m => m !! k ≫= select p'
      | Leaf _ => None
      end
  end.

(** Attribute assignment [c.k1.k2...kn = v]: the object [c.k1...k(n-1)] is
    read first and must be a dictionary; the last key is then set, created
    if absent. *)
Fixpoint update (p : path) (v : cfg) (c : cfg) : option cfg :=
  match p with
  | [] => Some v
  | k :: p' =>
      match c with
      | Node m =>
          match p' with
          | [] => Some (Node (<[k := v]> m))
          | _ :: _ => sub ← m !! k; sub' ← update p' v sub; Some (Node (<[k := sub']> m))
          end
      | Leaf _ => None
      end
  end.

(** The missing marker [???]. *)
Definition is_missing (c : cfg) : bool :=
  match c with
  | Leaf (VStr s) => String.eqb s "???"
  | _ => false
  end.

(** [k in c] for a [DictConfig]: the key is there and its value is not
    the missing marker ([DictConfig.__contains__] counts a missing value
    as not existing, and an interpolation as existing). *)
Definition has_key (k : string) (c : cfg) : bool :=
  match c with
  | Node m =>
      match m !! k with
      | Some x => negb (is_missing x)
      | None => false
      end
  | Leaf _ => false
  end.

(** A string that holds an interpolation [${...}]. *)
Fixpoint has_interpolation (s : string) : bool :=
  match s with
  | EmptyString => false
  | String _ s' => String.prefix "${" s || has_interpolation s'
  end.

(** A stored value that OmegaConf hands out as it is: no interpolation
    and no missing marker in it. *)
Fixpoint plain_value (v : value) : bool :=
  match v with
  | VStr s => negb (has_interpolation s) && negb (String.eqb s "???")
  | VList l => forallb plain_value l
  | _ => true
  end.


(** [OmegaConf.to_container]: the same tree as plain Python containers. *)
Definition to_container (c : cfg) : cfg := c.

(** ** Arrays, batches and loaders *)

Record ndarray := { shape : list nat; data : list Q }.

(** A batch is a tuple of columns (images, labels, ...), a column is
    indexed by sample; a loader yields batches. *)
Definition batch := list (list ndarray).
Definition loader := list batch.

(** ** Exceptions and events *)

Inductive exn :=
| AssertionError (msg : string)
| AttributeError (p : path)
| TypeError
| FileNotFoundError (file : string)
| IsADirectoryError (file : string)
| PermissionError (file : string)
| YAMLError (file : string)
| StopIteration
| IndexError.

Inductive trainer_kind :=
| AutoDecodingENFTrainerImage
| MetaSGDAutoDecodingENFTrainerImage.

(** Objects built by the collaborating modules are opaque handles. *)
Definition handle := nat.

Inductive event :=
| ELoadConfig (file : string)
| EGetDataloader (dataset_cfg : cfg)
| EGetModel (config : cfg)
| ENewTrainer (kind : trainer_kind) (config : cfg) (enf ad1 ad2 : handle)
    (train_loader val_loader : loader) (coords : list (list Q)) (seed : Z)
| ECreateFunctions
| ELoadCheckpoint
| ECloseProgBar
| EWandbInit (entity project name : string) (dir : cfg) (config : cfg) (mode : string)
| EGetOrCreateLatentDataset (conf : cfg) (trainer : trainer_kind) (enf_state : handle).

(** What the environment and the collaborating modules answer.
    [OmegaConf.load] returns a configuration or raises: [load_yaml] is the
    configuration when there is one, and [load_error] the exception the
    call raises otherwise ([FileNotFoundError] for a file that does not
    exist, [IsADirectoryError], [PermissionError] or [YAMLError] for one
    that cannot be read or parsed).  The other collaborators are taken to
    return: the script catches no exception, so one raised by any of them
    would end the run there. *)
Record world := {
  resolve : string → string;                  (* Path(s).resolve() *)
  hydra_output_dir : string;                  (* HydraConfig.get()['runtime']['output_dir'] *)
  load_yaml : string → option cfg;            (* OmegaConf.load, when it returns *)
  load_error : string → exn;                  (* OmegaConf.load, when it raises *)
  get_dataloader : cfg → loader * loader;
  get_model : cfg → handle * handle * handle;
  load_checkpoint : trainer_kind → cfg → handle;
  repr : cfg → string                         (* str() of containers and floats *)
}.

(** ** The monad of the script: a trace of events and a result or an
    exception *)

Definition M (A : Type) : Type := list event * (exn + A).

#[global] Instance M_ret : MRet M := λ A a, ([], inr a).
#[global] Instance M_bind : MBind M := λ A B f m,
  match m with
  | (tr, inl e) => (tr, inl e)
  | (tr, inr a) => let '(tr', r) := f a in (tr ++ tr', r)
  end.

Definition raise {A} (e : exn) : M A := ([], inl e).
Definition emit (ev : event) : M unit := ([ev], inr tt).

Definition getattr (c : cfg) (p : path) : M cfg :=
  match select p c with
  | Some v => mret v
  | None => raise (AttributeError p)
  end.

Definition setattr (c : cfg) (p : path) (v : cfg) : M cfg :=
  match update p v c with
  | Some c' => mret c'
  | None => raise (AttributeError p)
  end.

Definition assert_ (b : bool) (msg : string) : M unit :=
  if b then mret tt else raise (AssertionError msg).

(** [Path(x)]: a string or a path, anything else is a [TypeError]. *)
Definition Path (c : cfg) : M string :=
  match c with
  | Leaf (VStr s) => mret s
  | Leaf (VPath s) => mret s
  | _ => raise TypeError
  end.

(** [str(x)], as used by f-strings. *)
Definition py_str (W : world) (c : cfg) : string :=
  match c with
  | Leaf VNone => "None"
  | Leaf (VBool true) => "True"
  | Leaf (VBool false) => "False"
  | Leaf (VInt z) => pretty z
  | Leaf (VStr s) => s
  | Leaf (VPath s) => s
  | _ => repr W c
  end.

(** Tuple indexing [t[i]] and [t[-1]]. *)
Definition index {A} (l : list A) (i : nat) : M A :=
  match l !! i with
  | Some a => mret a
  | None => raise IndexError
  end.

Definition index_last {A} (l : list A) : M A :=
  match last l with
  | Some a => mret a
  | None => raise IndexError
  end.

(** ** The array operations of the position grid *)

(** [jnp.linspace(start, stop, num)] with the endpoint included: the
    interpolation [start * (1 - i/div) + stop * (i/div)] for
    [div = num - 1], the last point being [stop] itself. *)
Definition lerp (start stop : Q) (div : nat) (i : nat) : Q :=
  (start * (1 - inject_Z (Z.of_nat i) / inject_Z (Z.of_nat div))
   + stop * (inject_Z (Z.of_nat i) / inject_Z (Z.of_nat div)))%Q.

Definition linspace (start stop : Q) (num : nat) : list Q :=
  match num with
  | O => []
  | S O => [start]
  | S div => map (lerp start stop div) (seq 0 div) ++ [stop]
  end.

(** [jnp.meshgrid(xs, ys)] with the default ['xy'] indexing: two arrays
    of shape [(len ys, len xs)]. *)
Definition meshgrid (xs ys : list Q) : list (list Q) * list (list Q) :=
  (map (λ _, xs) ys, map (λ y, map (λ _, y) xs) ys).

(** [jnp.stack((a, b), axis=-1)] on two 2-d arrays. *)
Definition stack_last (ab : list (list Q) * list (list Q)) : list (list (list Q)) :=
  zip_with (zip_with (λ x y, [x; y])) ab.1 ab.2.

(** [.reshape(-1, 2)]: the elements in row-major order, two per row. *)
Fixpoint rows_of_2 (flat : list Q) : list (list Q) :=
  match flat with
  | a :: b :: rest => [a; b] :: rows_of_2 rest
  | _ => []
  end.

Definition reshape_m1_2 (a : list (list (list Q))) : list (list Q) :=
  rows_of_2 (concat (concat a)).

(** ** The script *)

Section Script.
Variable W : world.

(** Lines 19-20: [assert conf.checkpoint_dir] and its resolution. *)
Definition resolve_checkpoint_dir (conf : cfg) : M cfg :=
  ckpt ← getattr conf ["checkpoint_dir"];
  _ ← assert_ (truthy ckpt) "";
  s ← Path ckpt;
  setattr conf ["checkpoint_dir"] (Leaf (VPath (resolve W s))).

(** Lines 23-25: [# Set log dir]. *)
Definition set_log_dir (conf : cfg) : M cfg :=
  log_dir ← getattr conf ["logging"; "log_dir"];
  if negb (truthy log_dir)
  then setattr conf ["logging"; "log_dir"] (Leaf (VStr (hydra_output_dir W)))
  else mret conf.

(** Lines 28-29: [# Load config from log_dir]. *)
Definition load_config (conf : cfg) : M cfg :=
  ckpt ← getattr conf ["checkpoint_dir"];
  let file := (py_str W ckpt ++ "/.hydra/config.yaml")%string in
  _ ← emit (ELoadConfig file);
  enf_cfg ← match load_yaml W file with
            | Some c => mret c
            | None => raise (load_error W file)
            end;
  ckpt ← getattr conf ["checkpoint_dir"];
  setattr enf_cfg ["logging"; "log_dir"] ckpt.

(** Lines 32-36: [# Overwrite dataset specs as per the config]. *)
Definition overwrite_dataset_specs (conf enf_cfg : cfg) : M cfg :=
  name ← getattr conf ["dataset"; "name"];
  name ← (if truthy name then mret name else getattr enf_cfg ["dataset"; "name"]);
  enf_cfg ← setattr enf_cfg ["dataset"; "name"] name;
  n ← getattr conf ["dataset"; "num_signals_train"];
  enf_cfg ← setattr enf_cfg ["dataset"; "num_signals_train"] n;
  n ← getattr conf ["dataset"; "num_signals_test"];
  enf_cfg ← setattr enf_cfg ["dataset"; "num_signals_test"] n;
  n ← getattr conf ["training"; "batch_size"];
  enf_cfg ← setattr enf_cfg ["dataset"; "batch_size"] n;
  n ← getattr conf ["training"; "fit_codes_num_epochs"];
  setattr enf_cfg ["test"; "min_num_epochs"] n.

(** Line 39: [# Create the dataset]. *)
Definition create_dataset (enf_cfg : cfg) : M (loader * loader) :=
  dataset_cfg ← getattr enf_cfg ["dataset"];
  _ ← emit (EGetDataloader dataset_cfg);
  mret (get_dataloader W dataset_cfg).

(** [next(iter(trainset))]. *)
Definition next_iter (l : loader) : M batch :=
  match l with
  | b :: _ => mret b
  | [] => raise StopIteration
  end.

(** Lines 42-45: [# Get image shape]. *)
Definition tuple_value (t : list nat) : cfg :=
  Leaf (VList (map (λ n, VInt (Z.of_nat n)) t)).

Definition get_image_shape (trainset : loader) : M (list nat) :=
  sample_batch ← next_iter trainset;
  images ← index sample_batch 0;
  smp_image ← index images 0;
  mret (shape smp_image).

(** Lines 48-49: [# Create position grid]. *)
Definition create_position_grid (image_shape : list nat) : M (list (list Q)) :=
  h ← index image_shape 0;
  w ← index image_shape 1;
  mret (reshape_m1_2 (stack_last (meshgrid (linspace (-1) 1 h) (linspace (-1) 1 w)))).

(** Lines 52-53: [# Set dimensionality of input and output]. *)
Definition set_dimensionality (image_shape : list nat) (enf_cfg : cfg) : M cfg :=
  enf_cfg ← setattr enf_cfg ["nef"; "num_in"] (Leaf (VInt 2));
  c ← index_last image_shape;
  setattr enf_cfg ["nef"; "num_out"] (Leaf (VInt (Z.of_nat c))).

(** Lines 56-82: [# Get the correct trainer]. *)
Definition get_trainer (enf_cfg : cfg) (trainset testset : loader)
    (coords : list (list Q)) : M trainer_kind :=
  enf_trainer ←
    (if negb (has_key "meta" enf_cfg) then
       _ ← emit (EGetModel enf_cfg);
       let '(enf, train_autodecoder, val_autodecoder) := get_model W enf_cfg in
       _ ← emit (ENewTrainer AutoDecodingENFTrainerImage enf_cfg
                   enf train_autodecoder val_autodecoder trainset testset coords 42);
       mret AutoDecodingENFTrainerImage
     else
       _ ← emit (EGetModel enf_cfg);
       let '(enf, inner_autodecoder, outer_autodecoder) := get_model W enf_cfg in
       _ ← emit (ENewTrainer MetaSGDAutoDecodingENFTrainerImage enf_cfg
                   enf inner_autodecoder outer_autodecoder trainset testset coords 42);
       mret MetaSGDAutoDecodingENFTrainerImage);
  _ ← emit ECreateFunctions;
  mret enf_trainer.

(** Lines 85-88: [# Load checkpoint], [# Close prog bar]. *)
Definition restore_checkpoint (kind : trainer_kind) (enf_cfg : cfg) : M handle :=
  _ ← emit ELoadCheckpoint;
  _ ← emit ECloseProgBar;
  mret (load_checkpoint W kind enf_cfg).

(** Lines 91-92: [# Check if config makes sense]. *)
Definition msg_load : string :=
  "You are trying to load a latent dataset from a checkpoint using a script meant for fiting a latent dataset.".
Definition msg_store : string :=
  "You are trying to create a latent dataset without storing it.".

Definition check_config (conf : cfg) : M unit :=
  load ← getattr conf ["latent_dataset"; "load"];
  _ ← assert_ (negb (truthy load)) msg_load;
  store ← getattr conf ["latent_dataset"; "store_if_new"];
  assert_ (truthy store) msg_store.

(** Lines 95-102: [# Initialize wandb]. *)
Definition init_wandb (conf enf_cfg : cfg) : M unit :=
  name ← getattr conf ["dataset"; "name"];
  dir ← getattr conf ["logging"; "log_dir"];
  debug ← getattr conf ["logging"; "debug"];
  emit (EWandbInit "equivariance" "enf-jax-dataset-creation"
          ("latent-dataset-" ++ py_str W name)%string
          dir (to_container enf_cfg)
          (if truthy debug then "disabled" else "online")).

(** Line 105: [# Create downstream dataset]. *)
Definition create_downstream_dataset (conf : cfg) (kind : trainer_kind)
    (enf_state : handle) : M unit :=
  emit (EGetOrCreateLatentDataset conf kind enf_state).

(** The body of the entry point, lines 17-105. *)
Definition create_latent_dataset_from_checkpoint (conf : cfg) : M unit :=
  conf ← resolve_checkpoint_dir conf;
  conf ← set_log_dir conf;
  enf_cfg ← load_config conf;
  enf_cfg ← overwrite_dataset_specs conf enf_cfg;
  '(trainset, testset) ← create_dataset enf_cfg;
  image_shape ← get_image_shape trainset;
  enf_cfg ← setattr enf_cfg ["dataset"; "image_shape"] (tuple_value image_shape);
  coords ← create_position_grid image_shape;
  enf_cfg ← set_dimensionality image_shape enf_cfg;
  kind ← get_trainer enf_cfg trainset testset coords;
  enf_state ← restore_checkpoint kind enf_cfg;
  _ ← check_config conf;
  _ ← init_wandb conf enf_cfg;
  create_downstream_dataset conf kind enf_state.
End Script.

(** ** A concrete invocation, used to run the model *)

Definition dict (l : list (string * cfg)) : cfg := Node (list_to_map l).

Definition str (s : string) : cfg := Leaf (VStr s).
Definition int (z : Z) : cfg := Leaf (VInt z).
Definition bool_ (b : bool) : cfg := Leaf (VBool b).
Definition null : cfg := Leaf VNone.

(** The invocation's configuration, parameterised by the fields the
    script branches on. *)
Definition conf_with (checkpoint_dir log_dir name load store_if_new debug : cfg) : cfg :=
  dict [("checkpoint_dir", checkpoint_dir);
        ("logging", dict [("log_dir", log_dir); ("debug", debug)]);
        ("dataset", dict [("name", name); ("num_signals_train", int 100);
                          ("num_signals_test", int 20)]);
        ("training", dict [("batch_size", int 8); ("fit_codes_num_epochs", int 5)]);
        ("latent_dataset", dict [("load", load); ("store_if_new", store_if_new)])].

Definition conf0 : cfg :=
  conf_with (str "ckpt") null (str "mnist") (bool_ false) (bool_ true) (bool_ false).

(** The training configuration saved with the checkpoint. *)
Definition saved_cfg : cfg :=
  dict [("logging", dict [("log_dir", str "/runs/train"); ("debug", bool_ false)]);
        ("dataset", dict [("name", str "cifar10"); ("num_signals_train", int 50000);
                          ("num_signals_test", int 10000); ("batch_size", int 32);
                          ("path", str "/data")]);
        ("test", dict [("min_num_epochs", int 10)]);
        ("nef", dict [("num_hidden", int 128)]);
        ("optimizer", dict [("lr", Leaf (VFloat (1 # 1000)))])].

Definition saved_cfg_meta : cfg :=
  match saved_cfg with
  | Node m => Node (<["meta" := dict [("inner_steps", int 3)]]> m)
  | c => c
  end.

Definition image0 : ndarray := {| shape := [2; 3; 1]; data := [] |}.
Definition loader0 : loader := [[[image0; image0]; []]].

Definition world_with (saved : cfg) (train : loader) : world :=
  {| resolve := λ s, ("/abs/" ++ s)%string;
     hydra_output_dir := "/outputs/run";
     load_yaml := λ f, if String.eqb f "/abs/ckpt/.hydra/config.yaml" then Some saved else None;
     load_error := FileNotFoundError;
     get_dataloader := λ _, (train, []);
     get_model := λ _, (1, 2, 3)%nat;
     load_checkpoint := λ _ _, 4%nat;
     repr := λ _, "<object>" |}.

Definition world0 : world := world_with saved_cfg loader0.

(** The pipeline stage an event belongs to. *)
Inductive stage :=
| ConfigMerge | DataloaderConstruction | TrainerReconstruction
| CheckpointRestore | ExperimentLogging | DatasetMaterialization.

#[global] Instance stage_eq_dec : EqDecision stage.
Proof. solve_decision. Defined.

Definition stage_of (ev : event) : stage :=
  match ev with
  | ELoadConfig _ => ConfigMerge
  | EGetDataloader _ => DataloaderConstruction
  | EGetModel _ | ENewTrainer _ _ _ _ _ _ _ _ _ | ECreateFunctions => TrainerReconstruction
  | ELoadCheckpoint | ECloseProgBar => CheckpointRestore
  | EWandbInit _ _ _ _ _ _ => ExperimentLogging
  | EGetOrCreateLatentDataset _ _ _ => DatasetMaterialization
  end.

(** Consecutive events of one stage count once. *)
Fixpoint stages (tr : list event) : list stage :=
  match tr with
  | [] => []
  | ev :: tr' =>
      match tr' with
      | ev' :: _ =>
          if bool_decide (stage_of ev = stage_of ev') then stages tr'
          else stage_of ev :: stages tr'
      | [] => [stage_of ev]
      end
  end.

#[global] Arguments select : simpl never.
#[global] Arguments update : simpl never.
#[global] Arguments py_str : simpl never.

Definition config_file (W : world) (conf : cfg) : option string :=
  ckpt ← select ["checkpoint_dir"] conf;
  Some (py_str W ckpt ++ "/.hydra/config.yaml")%string.

(** The trainer class the script picks for a configuration. *)
Definition trainer_for (enf_cfg : cfg) : trainer_kind :=
  if has_key "meta" enf_cfg
  then MetaSGDAutoDecodingENFTrainerImage
  else AutoDecodingENFTrainerImage.

Definition trainer_events (W : world) (enf_cfg : cfg) (trainset testset : loader)
    (coords : list (list Q)) : list event :=
  [EGetModel enf_cfg;
   ENewTrainer (trainer_for enf_cfg) enf_cfg
     (get_model W enf_cfg).1.1 (get_model W enf_cfg).1.2 (get_model W enf_cfg).2
     trainset testset coords 42;
   ECreateFunctions].

Definition wandb_event (W : world) (name dir debug enf_cfg : cfg) : event :=
  EWandbInit "equivariance" "enf-jax-dataset-creation"
    ("latent-dataset-" ++ py_str W name)%string dir enf_cfg
    (if truthy debug then "disabled" else "online").

(** ** The shape of every run *)

(** The values a run has computed once the trainer is built. *)
Record run_values := {
  rv_conf : cfg;            (* [conf] after lines 19-25 *)
  rv_file : string;         (* the file given to [OmegaConf.load] *)
  rv_loaded : cfg;          (* what [OmegaConf.load] returned *)
  rv_merged : cfg;          (* [enf_cfg] after line 36 *)
  rv_dataset_cfg : cfg;     (* [enf_cfg.dataset] at line 39 *)
  rv_image_shape : list nat;
  rv_coords : list (list Q);
  rv_enf_cfg : cfg          (* [enf_cfg] after line 53 *)
}.

Definition rv_trainset (W : world) (v : run_values) : loader :=
  (get_dataloader W (rv_dataset_cfg v)).1.
Definition rv_testset (W : world) (v : run_values) : loader :=
  (get_dataloader W (rv_dataset_cfg v)).2.

Record prepared (W : world) (conf : cfg) (v : run_values) : Prop := {
  prep_dirs : ∃ conf1,
    resolve_checkpoint_dir W conf = ([], inr conf1) ∧
    set_log_dir W conf1 = ([], inr (rv_conf v));
  prep_file : config_file W (rv_conf v) = Some (rv_file v);
  prep_loaded : load_yaml W (rv_file v) = Some (rv_loaded v);
  prep_merged : ∃ ckpt enf1,
    select ["checkpoint_dir"] (rv_conf v) = Some ckpt ∧
    update ["logging"; "log_dir"] ckpt (rv_loaded v) = Some enf1 ∧
    overwrite_dataset_specs (rv_conf v) enf1 = ([], inr (rv_merged v));
  prep_dataset : select ["dataset"] (rv_merged v) = Some (rv_dataset_cfg v);
  prep_shape : get_image_shape (rv_trainset W v) = ([], inr (rv_image_shape v));
  prep_coords : create_position_grid (rv_image_shape v) = ([], inr (rv_coords v));
  prep_enf_cfg : ∃ enf3,
    update ["dataset"; "image_shape"] (tuple_value (rv_image_shape v)) (rv_merged v)
      = Some enf3 ∧
    set_dimensionality (rv_image_shape v) enf3 = ([], inr (rv_enf_cfg v))
}.

(** The events up to the validation step. *)
Definition events_before_check (W : world) (v : run_values) : list event :=
  [ELoadConfig (rv_file v); EGetDataloader (rv_dataset_cfg v)] ++
  trainer_events W (rv_enf_cfg v) (rv_trainset W v) (rv_testset W v) (rv_coords v) ++
  [ELoadCheckpoint; ECloseProgBar].

Definition materialize_event (W : world) (v : run_values) : event :=
  EGetOrCreateLatentDataset (rv_conf v) (trainer_for (rv_enf_cfg v))
    (load_checkpoint W (trainer_for (rv_enf_cfg v)) (rv_enf_cfg v)).

Inductive run_view (W : world) (conf : cfg) : list event → exn + unit → Prop :=
| run_aborts_early tr e :
    tr = [] ∨ (∃ f, tr = [ELoadConfig f]) ∨ (∃ f d, tr = [ELoadConfig f; EGetDataloader d]) →
    run_view W conf tr (inl e)
| run_fails_check v e :
    prepared W conf v →
    check_config (rv_conf v) = ([], inl e) →
    run_view W conf (events_before_check W v) (inl e)
| run_fails_wandb v e :
    prepared W conf v →
    check_config (rv_conf v) = ([], inr tt) →
    init_wandb W (rv_conf v) (rv_enf_cfg v) = ([], inl e) →
    run_view W conf (events_before_check W v) (inl e)
| run_completes v name dir debug :
    prepared W conf v →
    check_config (rv_conf v) = ([], inr tt) →
    select ["dataset"; "name"] (rv_conf v) = Some name →
    select ["logging"; "log_dir"] (rv_conf v) = Some dir →
    select ["logging"; "debug"] (rv_conf v) = Some debug →
    run_view W conf
      (events_before_check W v ++
       [wandb_event W name dir debug (rv_enf_cfg v); materialize_event W v])
      (inr tt).

(** ** Reading after writing *)

(** Two paths overlap when one is a prefix of the other: a write to one
    changes what is read at the other. *)
Fixpoint overlaps (p q : path) : bool :=
  match p, q with
  | [], _ | _, [] => true
  | a :: p', b :: q' => if decide (a = b) then overlaps p' q' else false
  end.

(** Assignments in sequence. *)
Fixpoint update_all (ws : list (path * cfg)) (c : cfg) : option cfg :=
  match ws with
  | [] => Some c
  | (p, v) :: ws' => update p v c ≫= update_all ws'
  end.

(** The value line 32 assigns to [enf_cfg.dataset.name]. *)
Definition merged_name (conf_name : cfg) (saved_name : option cfg) : option cfg :=
  if truthy conf_name then Some conf_name else saved_name.

(** [sample_batch[0][0]] of the first batch, lines 42-43. *)
Definition first_sample (l : loader) : option ndarray :=
  sample_batch ← head l; images ← head sample_batch; head images.

(** Every assignment to [enf_cfg], lines 29-53, in order. *)
Definition written_paths : list path :=
  [["logging"; "log_dir"];
   ["dataset"; "name"]; ["dataset"; "num_signals_train"]; ["dataset"; "num_signals_test"];
   ["dataset"; "batch_size"]; ["test"; "min_num_epochs"];
   ["dataset"; "image_shape"]; ["nef"; "num_in"]; ["nef"; "num_out"]].

Definition unaffected (p : path) : bool :=
  forallb (λ q, negb (overlaps p q)) written_paths.

(** ** Sections of a configuration *)


(** ** The position grid *)

Definition pair2 (x y : Q) : list Q := [x; y].

(** The grid, row by row: the first coordinate runs fastest. *)
Definition grid_rows (xs ys : list Q) : list (list Q) :=
  concat (map (λ y, map (λ x, [x; y]) xs) ys).

(** The i-th of [num] evenly spaced points from [start] to [stop]. *)
Definition evenly_spaced_point (start stop : Q) (num i : nat) : Q :=
  (start + inject_Z (Z.of_nat i) * ((stop - start) / inject_Z (Z.of_nat (num - 1))))%Q.


(** ** The concrete invocation, run *)

Definition merged_dataset0 (image_shape : list (string * cfg)) : cfg :=
  dict ([("name", str "mnist"); ("num_signals_train", int 100);
         ("num_signals_test", int 20); ("batch_size", int 8);
         ("path", str "/data")] ++ image_shape).

Definition merged_cfg0 (image_shape num : list (string * cfg)) : cfg :=
  dict [("logging", dict [("log_dir", Leaf (VPath "/abs/ckpt")); ("debug", bool_ false)]);
        ("dataset", merged_dataset0 image_shape);
        ("test", dict [("min_num_epochs", int 5)]);
        ("nef", dict ([("num_hidden", int 128)] ++ num));
        ("optimizer", dict [("lr", Leaf (VFloat (1 # 1000)))])].

Definition values0 : run_values :=
  {| rv_conf := conf_with (Leaf (VPath "/abs/ckpt")) (str "/outputs/run") (str "mnist")
                  (bool_ false) (bool_ true) (bool_ false);
     rv_file := "/abs/ckpt/.hydra/config.yaml";
     rv_loaded := saved_cfg;
     rv_merged := merged_cfg0 [] [];
     rv_dataset_cfg := merged_dataset0 [];
     rv_image_shape := [2; 3; 1];
     rv_coords := grid_rows (linspace (-1) 1 2) (linspace (-1) 1 3);
     rv_enf_cfg := merged_cfg0 [("image_shape", tuple_value [2; 3; 1])]
                     [("num_in", int 2); ("num_out", int 1)] |}.

(** * The claims *)

(** ** The configuration merge (lines 32-36) *)



(** Events of the two last stages. *)
Definition logs_or_materializes (ev : event) : bool :=
  match ev with
  | EWandbInit _ _ _ _ _ _ | EGetOrCreateLatentDataset _ _ _ => true
  | _ => false
  end.

(** ** What a trace shows *)

Definition trainers_built (tr : list event) : list trainer_kind :=
  omap (λ ev, match ev with
              | ENewTrainer kind _ _ _ _ _ _ _ _ => Some kind
              | _ => None
              end) tr.

Definition files_loaded (tr : list event) : list string :=
  omap (λ ev, match ev with ELoadConfig file => Some file | _ => None end) tr.

(** The training configurations handed to the collaborators. *)
Definition configs_seen (tr : list event) : list cfg :=
  omap (λ ev, match ev with
              | EGetModel c | ENewTrainer _ c _ _ _ _ _ _ _ | EWandbInit _ _ _ _ c _ => Some c
              | _ => None
              end) tr.

(** A saved [meta: ???] is a missing value: the plain auto-decoding
    trainer is built. *)
Definition saved_cfg_meta_missing : cfg :=
  match saved_cfg with
  | Node m => Node (<["meta" := str "???"]> m)
  | c => c
  end.

(** ** The frame of the configuration (lines 28-53) *)

(** The dataset configurations given to [get_dataloader]. *)
Definition dataloader_cfgs (tr : list event) : list cfg :=
  omap (λ ev, match ev with EGetDataloader d => Some d | _ => None end) tr.


(** ** The order of the stages *)

Definition claimed_order : list stage :=
  [ConfigMerge; DataloaderConstruction; TrainerReconstruction; CheckpointRestore;
   DatasetMaterialization; ExperimentLogging].

Definition actual_order : list stage :=
  [ConfigMerge; DataloaderConstruction; TrainerReconstruction; CheckpointRestore;
   ExperimentLogging; DatasetMaterialization].

(** * Further properties of the script *)

(** ** The start of a run (lines 19-39) *)

(** The state after line 36: directories resolved, the saved configuration
    loaded and merged. *)
Record merge_done (W : world) (conf conf2 : cfg) (file : string)
    (loaded merged : cfg) : Prop := {
  md_dirs : ∃ conf1,
    resolve_checkpoint_dir W conf = ([], inr conf1) ∧
    set_log_dir W conf1 = ([], inr conf2);
  md_file : config_file W conf2 = Some file;
  md_loaded : load_yaml W file = Some loaded;
  md_merged : ∃ ckpt enf1,
    select ["checkpoint_dir"] conf2 = Some ckpt ∧
    update ["logging"; "log_dir"] ckpt loaded = Some enf1 ∧
    overwrite_dataset_specs conf2 enf1 = ([], inr merged)
}.

(** ** The tracker's run name (lines 32 and 98) *)








(** * Properties *)

(** * Properties *)

(** ** The monad *)

Lemma bind_inv {A B} (m : M A) (f : A → M B) tr r :
  m ≫= f = (tr, r) →
  (∃ e, m = (tr, inl e) ∧ r = inl e) ∨
  (∃ tr1 a tr2, m = (tr1, inr a) ∧ f a = (tr2, r) ∧ tr = tr1 ++ tr2).
Proof.
  unfold mbind, M_bind. destruct m as [tr1 [e|a]].
  - intros [= <- <-]. left. eauto.
  - destruct (f a) as [tr2 r2] eqn:Hf. intros [= <- <-]. right. eauto 10.
Qed.

Lemma ret_inv {A} (a : A) tr (r : exn + A) :
  (mret a : M A) = (tr, r) → tr = [] ∧ r = inr a.
Proof. by intros [= <- <-]. Qed.

Lemma raise_inv {A} e tr (r : exn + A) :
  (raise e : M A) = (tr, r) → tr = [] ∧ r = inl e.
Proof. by intros [= <- <-]. Qed.

Lemma emit_inv ev tr r : emit ev = (tr, r) → tr = [ev] ∧ r = inr tt.
Proof. by intros [= <- <-]. Qed.

Lemma getattr_inv c p tr r :
  getattr c p = (tr, r) →
  tr = [] ∧ ((select p c = None ∧ r = inl (AttributeError p)) ∨
             (∃ v, select p c = Some v ∧ r = inr v)).
Proof. unfold getattr. destruct (select p c); intros [= <- <-]; eauto. Qed.

Lemma setattr_inv c p v tr r :
  setattr c p v = (tr, r) →
  tr = [] ∧ ((update p v c = None ∧ r = inl (AttributeError p)) ∨
             (∃ c', update p v c = Some c' ∧ r = inr c')).
Proof. unfold setattr. destruct (update p v c); intros [= <- <-]; eauto. Qed.

Lemma assert_inv b msg tr r :
  assert_ b msg = (tr, r) →
  tr = [] ∧ ((b = false ∧ r = inl (AssertionError msg)) ∨ (b = true ∧ r = inr tt)).
Proof. unfold assert_. destruct b; intros [= <- <-]; eauto. Qed.

Lemma index_inv {A} (l : list A) i tr r :
  index l i = (tr, r) →
  tr = [] ∧ ((l !! i = None ∧ r = inl IndexError) ∨ (∃ a, l !! i = Some a ∧ r = inr a)).
Proof. unfold index. destruct (l !! i); intros [= <- <-]; eauto. Qed.

Lemma index_last_inv {A} (l : list A) tr r :
  index_last l = (tr, r) →
  tr = [] ∧ ((last l = None ∧ r = inl IndexError) ∨ (∃ a, last l = Some a ∧ r = inr a)).
Proof. unfold index_last. destruct (last l); intros [= <- <-]; eauto. Qed.

Lemma Path_inv c tr r :
  Path c = (tr, r) →
  tr = [] ∧ (r = inl TypeError ∨
             (∃ s, (c = Leaf (VStr s) ∨ c = Leaf (VPath s)) ∧ r = inr s)).
Proof. destruct c as [[]|]; intros [= <- <-]; eauto 6. Qed.

Lemma next_iter_inv l tr r :
  next_iter l = (tr, r) →
  tr = [] ∧ ((l = [] ∧ r = inl StopIteration) ∨ (∃ b l', l = b :: l' ∧ r = inr b)).
Proof. destruct l; intros [= <- <-]; eauto 6. Qed.

(** One step of symbolic execution of a run. *)
Ltac run_step :=
  match goal with
  | H : inl _ = inr _ |- _ => discriminate H
  | H : inr _ = inl _ |- _ => discriminate H
  | H : inl _ = inl _ |- _ => injection H as ?
  | H : inr _ = inr _ |- _ => injection H as ?
  | H : mret _ = (_, _) |- _ => apply ret_inv in H as [? ?]
  | H : raise _ = (_, _) |- _ => apply raise_inv in H as [? ?]
  | H : emit _ = (_, _) |- _ => apply emit_inv in H as [? ?]
  | H : getattr _ _ = (_, _) |- _ => apply getattr_inv in H as [? [[? ?]|(? & ? & ?)]]
  | H : setattr _ _ _ = (_, _) |- _ => apply setattr_inv in H as [? [[? ?]|(? & ? & ?)]]
  | H : assert_ _ _ = (_, _) |- _ => apply assert_inv in H as [? [[? ?]|[? ?]]]
  | H : index _ _ = (_, _) |- _ => apply index_inv in H as [? [[? ?]|(? & ? & ?)]]
  | H : index_last _ = (_, _) |- _ => apply index_last_inv in H as [? [[? ?]|(? & ? & ?)]]
  | H : Path _ = (_, _) |- _ => apply Path_inv in H as [? [?|(? & ? & ?)]]
  | H : next_iter _ = (_, _) |- _ => apply next_iter_inv in H as [? [[? ?]|(? & ? & ? & ?)]]
  | H : (if ?b then _ else _) = (_, _) |- _ => destruct b eqn:?
  | H : match ?o with Some _ => _ | None => _ end = (_, _) |- _ => destruct o eqn:?
  | H : (let '(_, _) := ?x in _) = (_, _) |- _ => destruct x as [? ?] eqn:?
  | H : _ ≫= _ = (_, _) |- _ =>
      apply bind_inv in H as [(? & H & ?)|(? & ? & ? & ? & H & ?)]
  end; subst.

Ltac run_inv := repeat run_step; cbn [app] in *.

(** ** The phases one at a time *)

Lemma app_nil_nil {A} (l1 l2 : list A) : l1 = [] → l2 = [] → l1 ++ l2 = [].
Proof. by intros -> ->. Qed.

Ltac silent := intros; run_inv; reflexivity.

Lemma resolve_checkpoint_dir_silent W conf tr r :
  resolve_checkpoint_dir W conf = (tr, r) → tr = [].
Proof. unfold resolve_checkpoint_dir. silent. Qed.

Lemma set_log_dir_silent W conf tr r : set_log_dir W conf = (tr, r) → tr = [].
Proof. unfold set_log_dir. silent. Qed.

Lemma overwrite_dataset_specs_silent conf enf_cfg tr r :
  overwrite_dataset_specs conf enf_cfg = (tr, r) → tr = [].
Proof. unfold overwrite_dataset_specs. silent. Qed.

Lemma get_image_shape_silent l tr r : get_image_shape l = (tr, r) → tr = [].
Proof. unfold get_image_shape. silent. Qed.

Lemma create_position_grid_silent sh tr r : create_position_grid sh = (tr, r) → tr = [].
Proof. unfold create_position_grid. silent. Qed.

Lemma set_dimensionality_silent sh enf_cfg tr r :
  set_dimensionality sh enf_cfg = (tr, r) → tr = [].
Proof. unfold set_dimensionality. silent. Qed.

Lemma check_config_silent conf tr r : check_config conf = (tr, r) → tr = [].
Proof. unfold check_config. silent. Qed.

Lemma load_config_inv W conf tr r :
  load_config W conf = (tr, r) →
  (tr = [] ∧ ∃ e, r = inl e) ∨
  (∃ file, config_file W conf = Some file ∧ tr = [ELoadConfig file] ∧
     ((∃ e, r = inl e) ∨
      ∃ ckpt loaded enf_cfg,
        select ["checkpoint_dir"] conf = Some ckpt ∧
        load_yaml W file = Some loaded ∧
        update ["logging"; "log_dir"] ckpt loaded = Some enf_cfg ∧
        r = inr enf_cfg)).
Proof.
  unfold load_config, config_file. intros H. run_inv; simplify_eq; eauto.
  all: match goal with H : select _ _ = _ |- _ => rewrite H; simpl end.
  all: right; eexists; split; [reflexivity|]; split; [reflexivity|]; eauto 10.
Qed.

Lemma create_dataset_inv W enf_cfg tr r :
  create_dataset W enf_cfg = (tr, r) →
  (tr = [] ∧ ∃ e, r = inl e) ∨
  (∃ dataset_cfg, select ["dataset"] enf_cfg = Some dataset_cfg ∧
     tr = [EGetDataloader dataset_cfg] ∧ r = inr (get_dataloader W dataset_cfg)).
Proof. unfold create_dataset. intros H. run_inv; eauto 10. Qed.

Lemma get_trainer_eq W enf_cfg trainset testset coords :
  get_trainer W enf_cfg trainset testset coords =
  (trainer_events W enf_cfg trainset testset coords, inr (trainer_for enf_cfg)).
Proof.
  unfold get_trainer, trainer_events, trainer_for.
  destruct (get_model W enf_cfg) as [[enf a] b].
  destruct (has_key "meta" enf_cfg); reflexivity.
Qed.


Lemma init_wandb_inv W conf enf_cfg tr r :
  init_wandb W conf enf_cfg = (tr, r) →
  (tr = [] ∧ ∃ e, r = inl e) ∨
  (∃ name dir debug,
     select ["dataset"; "name"] conf = Some name ∧
     select ["logging"; "log_dir"] conf = Some dir ∧
     select ["logging"; "debug"] conf = Some debug ∧
     tr = [wandb_event W name dir debug enf_cfg] ∧ r = inr tt).
Proof. unfold init_wandb. intros H. run_inv; eauto 10. Qed.

Ltac bind_cases H e :=
  apply bind_inv in H as [(e & H & ->)|(? & ? & ? & ? & H & ->)].

Lemma run_has_view W conf tr r :
  create_latent_dataset_from_checkpoint W conf = (tr, r) → run_view W conf tr r.
Proof.
  unfold create_latent_dataset_from_checkpoint. intros H.
  bind_cases H e.
  { apply resolve_checkpoint_dir_silent in H as ->. constructor; auto. }
  rename x0 into conf1, H0 into Hdir.
  pose proof (resolve_checkpoint_dir_silent _ _ _ _ Hdir) as ->.
  bind_cases H e.
  { apply set_log_dir_silent in H as ->. constructor; auto. }
  rename x0 into conf2, H0 into Hlog.
  pose proof (set_log_dir_silent _ _ _ _ Hlog) as ->.
  bind_cases H e.
  { apply load_config_inv in H as [[-> _]|(f & _ & -> & _)]; constructor; eauto. }
  rename x0 into enf1.
  apply load_config_inv in H0 as [[_ [? ?]]|(file & Hfile & -> & [[? ?]|Hload])]; try done.
  destruct Hload as (ckpt & loaded & enf1' & Hckpt & Hloaded & Hupd & [= <-]).
  bind_cases H e.
  { apply overwrite_dataset_specs_silent in H as ->. constructor; eauto. }
  rename x0 into enf2, H0 into Hmerge.
  pose proof (overwrite_dataset_specs_silent _ _ _ _ Hmerge) as ->.
  bind_cases H e.
  { apply create_dataset_inv in H as [[-> _]|(d & _ & -> & ?)]; [|done].
    constructor; eauto. }
  apply create_dataset_inv in H0 as [[_ [? ?]]|(ds & Hds & -> & [= ->])]; try done.
  destruct (get_dataloader W ds) as [trainset testset] eqn:Hdl.
  bind_cases H e.
  { apply get_image_shape_silent in H as ->. constructor; eauto. }
  rename x0 into image_shape, H0 into Hshape.
  pose proof (get_image_shape_silent _ _ _ Hshape) as ->.
  bind_cases H e.
  { apply setattr_inv in H as [-> _]. constructor; eauto. }
  apply setattr_inv in H0 as [-> [[_ ?]|(enf3 & Henf3 & [= ->])]]; try done.
  bind_cases H e.
  { apply create_position_grid_silent in H as ->. constructor; eauto. }
  rename x0 into coords, H0 into Hcoords.
  pose proof (create_position_grid_silent _ _ _ Hcoords) as ->.
  bind_cases H e.
  { apply set_dimensionality_silent in H as ->. constructor; eauto. }
  rename x0 into enf4, H0 into Hdim.
  pose proof (set_dimensionality_silent _ _ _ _ Hdim) as ->.
  set (v := {| rv_conf := conf2; rv_file := file; rv_loaded := loaded;
               rv_merged := enf2; rv_dataset_cfg := ds;
               rv_image_shape := image_shape; rv_coords := coords;
               rv_enf_cfg := enf4 |}).
  assert (Hprep : prepared W conf v).
  { constructor; simpl; eauto 10.
    unfold rv_trainset; simpl. by rewrite Hdl. }
  rewrite get_trainer_eq in H.
  bind_cases H e; [done|]. injection H0 as <- <-.
  bind_cases H e; [done|]. injection H0 as <- <-.
  bind_cases H e.
  { pose proof (check_config_silent _ _ _ H) as ->.
    match goal with |- run_view _ _ ?t _ =>
      replace t with (events_before_check W v)
        by (unfold events_before_check, rv_trainset, rv_testset; simpl; by rewrite Hdl)
    end.
    by apply run_fails_check. }
  rename H0 into Hcheck. destruct x0.
  pose proof (check_config_silent _ _ _ Hcheck) as ->.
  bind_cases H e.
  { apply init_wandb_inv in H as Hw.
    destruct Hw as [[-> _]|(? & ? & ? & _ & _ & _ & _ & ?)]; [|done].
    match goal with |- run_view _ _ ?t _ =>
      replace t with (events_before_check W v)
        by (unfold events_before_check, rv_trainset, rv_testset; simpl; by rewrite Hdl)
    end.
    by apply run_fails_wandb. }
  apply init_wandb_inv in H0 as [[_ [? ?]]|(name & dir & debug & ? & ? & ? & -> & _)];
    [done|].
  destruct x0. injection H as <- <-.
  match goal with |- run_view _ _ ?t _ =>
    replace t with (events_before_check W v ++
      [wandb_event W name dir debug (rv_enf_cfg v); materialize_event W v])
      by (unfold events_before_check, rv_trainset, rv_testset; simpl; by rewrite Hdl)
  end.
  by apply run_completes.
Qed.

Lemma update_single k v m : update [k] v (Node m) = Some (Node (<[k := v]> m)).
Proof. reflexivity. Qed.

Lemma update_deep k k2 p v m :
  update (k :: k2 :: p) v (Node m) =
  sub ← m !! k; sub' ← update (k2 :: p) v sub; Some (Node (<[k := sub']> m)).
Proof. reflexivity. Qed.

Lemma update_cons_inv k p v c c' :
  update (k :: p) v c = Some c' →
  ∃ m, c = Node m ∧
    ((p = [] ∧ c' = Node (<[k := v]> m)) ∨
     (p ≠ [] ∧ ∃ sub sub', m !! k = Some sub ∧ update p v sub = Some sub' ∧
        c' = Node (<[k := sub']> m))).
Proof.
  destruct c as [?|m]; [by destruct p|]. intros H. exists m. split; [done|].
  destruct p as [|k2 p].
  - left. rewrite update_single in H. by injection H as <-.
  - right. split; [done|]. rewrite update_deep in H.
    destruct (m !! k) as [sub|] eqn:Hk; [|done]. simpl in H.
    destruct (update (k2 :: p) v sub) as [sub'|] eqn:Hs; [|done].
    injection H as <-. eauto.
Qed.

Lemma select_cons_node k p m : select (k :: p) (Node m) = m !! k ≫= select p.
Proof. reflexivity. Qed.


Lemma select_update_ne p q v c c' :
  update q v c = Some c' → overlaps p q = false → select p c' = select p c.
Proof.
  revert p c c'. induction q as [|k q IH]; intros p c c' H Hpq.
  - by destruct p.
  - destruct p as [|a p]; [done|]. simpl in Hpq.
    apply update_cons_inv in H as (m & -> & [[-> ->]|(_ & sub & sub' & Hk & Hs & ->)]).
    + destruct (decide (a = k)) as [->|Hne]; [by destruct p|].
      by rewrite !select_cons_node, lookup_insert_ne.
    + rewrite !select_cons_node. destruct (decide (a = k)) as [->|Hne].
      * rewrite lookup_insert_eq, Hk. simpl. eauto.
      * by rewrite lookup_insert_ne.
Qed.

Lemma has_key_update k k1 k2 q v c c' :
  update (k1 :: k2 :: q) v c = Some c' → has_key k c' = has_key k c.
Proof.
  intros H.
  apply update_cons_inv in H as (m & -> & [[? _]|(_ & sub & sub' & Hk & Hs & ->)]); [done|].
  apply update_cons_inv in Hs as (m1 & -> & [[_ ->]|(_ & ? & ? & _ & _ & ->)]).
  all: simpl; destruct (decide (k = k1)) as [->|Hne];
    [by rewrite lookup_insert_eq, Hk | by rewrite lookup_insert_ne].
Qed.

Lemma update_all_app ws1 ws2 c :
  update_all (ws1 ++ ws2) c = update_all ws1 c ≫= update_all ws2.
Proof.
  revert c. induction ws1 as [|[p v] ws1 IH]; intros c; simpl; [done|].
  destruct (update p v c); simpl; eauto.
Qed.

Lemma update_all_one p v c : update_all [(p, v)] c = update p v c.
Proof. simpl. by destruct (update p v c). Qed.

Lemma select_update_all_ne p ws c c' :
  update_all ws c = Some c' →
  forallb (λ w, negb (overlaps p w.1)) ws = true →
  select p c' = select p c.
Proof.
  revert c. induction ws as [|[q v] ws IH]; intros c H Hall; simpl in *.
  - by injection H as <-.
  - apply andb_prop in Hall as [Hq Hall].
    destruct (update q v c) as [c1|] eqn:Hu; [|done]. simpl in H.
    rewrite (IH _ H Hall). eapply select_update_ne; [done|].
    by destruct (overlaps p q).
Qed.

Lemma has_key_update_all k ws c c' :
  update_all ws c = Some c' →
  forallb (λ w, Nat.leb 2 (length w.1)) ws = true →
  has_key k c' = has_key k c.
Proof.
  revert c. induction ws as [|[q v] ws IH]; intros c H Hall; simpl in *.
  - by injection H as <-.
  - apply andb_prop in Hall as [Hq Hall].
    destruct (update q v c) as [c1|] eqn:Hu; [|done]. simpl in H.
    rewrite (IH _ H Hall).
    destruct q as [|k1 [|k2 q]]; try done. by eapply has_key_update.
Qed.

(** ** What each phase writes *)

Lemma resolve_checkpoint_dir_inv W conf conf1 tr :
  resolve_checkpoint_dir W conf = (tr, inr conf1) →
  ∃ ckpt s, select ["checkpoint_dir"] conf = Some ckpt ∧ truthy ckpt = true ∧
    (ckpt = Leaf (VStr s) ∨ ckpt = Leaf (VPath s)) ∧
    update ["checkpoint_dir"] (Leaf (VPath (resolve W s))) conf = Some conf1.
Proof. unfold resolve_checkpoint_dir. intros H. run_inv; eauto 10. Qed.

Lemma set_log_dir_inv W conf conf2 tr :
  set_log_dir W conf = (tr, inr conf2) →
  ∃ log_dir, select ["logging"; "log_dir"] conf = Some log_dir ∧
    ((truthy log_dir = true ∧ conf2 = conf) ∨
     (truthy log_dir = false ∧
      update ["logging"; "log_dir"] (Leaf (VStr (hydra_output_dir W))) conf = Some conf2)).
Proof.
  unfold set_log_dir. intros H. run_inv; eexists; (split; [done|]).
  - right. split; [|done]. by destruct (truthy _).
  - left. split; [|done]. by destruct (truthy _).
Qed.

Lemma overwrite_dataset_specs_inv conf enf_cfg enf_cfg' tr :
  overwrite_dataset_specs conf enf_cfg = (tr, inr enf_cfg') →
  ∃ name0 name n_train n_test batch_size epochs,
    select ["dataset"; "name"] conf = Some name0 ∧
    merged_name name0 (select ["dataset"; "name"] enf_cfg) = Some name ∧
    select ["dataset"; "num_signals_train"] conf = Some n_train ∧
    select ["dataset"; "num_signals_test"] conf = Some n_test ∧
    select ["training"; "batch_size"] conf = Some batch_size ∧
    select ["training"; "fit_codes_num_epochs"] conf = Some epochs ∧
    update_all [(["dataset"; "name"], name);
                (["dataset"; "num_signals_train"], n_train);
                (["dataset"; "num_signals_test"], n_test);
                (["dataset"; "batch_size"], batch_size);
                (["test"; "min_num_epochs"], epochs)] enf_cfg = Some enf_cfg'.
Proof.
  unfold overwrite_dataset_specs, merged_name. intros H. run_inv.
  all: do 6 eexists; repeat (split; [eassumption|]).
  all: match goal with H : truthy _ = _ |- _ => rewrite H end.
  all: split; [done|]; repeat (split; [eassumption|]).
  all: simpl; repeat match goal with H : update _ _ _ = Some _ |- _ => rewrite H; clear H; simpl end.
  all: done.
Qed.

Lemma set_dimensionality_inv image_shape enf_cfg enf_cfg' tr :
  set_dimensionality image_shape enf_cfg = (tr, inr enf_cfg') →
  ∃ c, last image_shape = Some c ∧
    update_all [(["nef"; "num_in"], Leaf (VInt 2));
                (["nef"; "num_out"], Leaf (VInt (Z.of_nat c)))] enf_cfg = Some enf_cfg'.
Proof.
  unfold set_dimensionality. intros H. run_inv. eexists. split; [done|].
  simpl. repeat match goal with H : update _ _ _ = Some _ |- _ => rewrite H; clear H; simpl end.
  done.
Qed.

Lemma get_image_shape_inv l image_shape tr :
  get_image_shape l = (tr, inr image_shape) →
  ∃ smp_image, first_sample l = Some smp_image ∧ image_shape = shape smp_image.
Proof.
  unfold get_image_shape, first_sample. intros H. run_inv.
  repeat match goal with
         | H : ?l !! 0 = Some _ |- _ => destruct l; [done|]; injection H as ->
         end.
  simpl. eauto.
Qed.

Lemma prepared_writes W conf v :
  prepared W conf v →
  ∃ ws, ws.*1 = written_paths ∧ update_all ws (rv_loaded v) = Some (rv_enf_cfg v).
Proof.
  intros [_ _ _ (ckpt & enf1 & _ & Hlog & Hmerge) _ _ _ (enf3 & Hshape & Hdim)].
  apply overwrite_dataset_specs_inv in Hmerge
    as (? & name & n1 & n2 & n3 & n4 & _ & _ & _ & _ & _ & _ & Hmerge).
  apply set_dimensionality_inv in Hdim as (c & _ & Hdim).
  eexists ([(_, ckpt)] ++ [(_, name); (_, n1); (_, n2); (_, n3); (_, n4)] ++
           [(_, tuple_value (rv_image_shape v))] ++ [(_, _); (_, _)]).
  split; [reflexivity|].
  unfold path in *.
  rewrite update_all_app, update_all_one, Hlog. cbn [mbind option_bind].
  rewrite update_all_app, Hmerge. cbn [mbind option_bind].
  rewrite update_all_app, update_all_one, Hshape. cbn [mbind option_bind].
  exact Hdim.
Qed.

Lemma prepared_conf_frame W conf v p :
  prepared W conf v →
  overlaps p ["checkpoint_dir"] = false →
  overlaps p ["logging"; "log_dir"] = false →
  select p (rv_conf v) = select p conf.
Proof.
  intros [(conf1 & Hdir & Hlog) _ _ _ _ _ _ _] H1 H2.
  apply resolve_checkpoint_dir_inv in Hdir as (? & ? & _ & _ & _ & Hdir).
  apply set_log_dir_inv in Hlog as (? & _ & [[_ ->]|[_ Hlog]]).
  - by eapply select_update_ne.
  - erewrite select_update_ne by done. by eapply select_update_ne.
Qed.

Lemma select_two k1 k2 c d :
  select [k1] c = Some (Node d) → select [k1; k2] c = (d !! k2 : option cfg).
Proof.
  destruct c as [?|m]; [done|]. rewrite !select_cons_node.
  destruct (m !! k1) as [sub|]; [|done]. simpl. intros [= ->].
  rewrite select_cons_node. by destruct (d !! k2).
Qed.







Lemma stack_meshgrid xs ys :
  stack_last (meshgrid xs ys) = map (λ y, map (λ x, [x; y]) xs) ys.
Proof.
  unfold stack_last, meshgrid. simpl.
  induction ys as [|y ys IH]; simpl; [done|]. f_equal; [|done].
  clear. induction xs as [|x xs IH]; simpl; [done|]. by f_equal.
Qed.

Lemma rows_of_2_pairs (y : Q) xs rest :
  rows_of_2 (concat (map (λ x, [x; y]) xs) ++ rest) =
  map (λ x, [x; y]) xs ++ rows_of_2 rest.
Proof. induction xs as [|x xs IH]; simpl; [done|]. by f_equal. Qed.

Lemma reshape_stack_meshgrid xs ys :
  reshape_m1_2 (stack_last (meshgrid xs ys)) = grid_rows xs ys.
Proof.
  unfold reshape_m1_2, grid_rows. rewrite stack_meshgrid.
  induction ys as [|y ys IH]; simpl; [done|].
  rewrite concat_app, rows_of_2_pairs. by f_equal.
Qed.




Lemma linspace_length start stop num : length (linspace start stop num) = num.
Proof.
  destruct num as [|[|div]]; [done..|]. unfold linspace.
  rewrite length_app, length_map, length_seq. simpl. lia.
Qed.

Lemma inject_nat_nonzero n : n ≠ 0 → ¬ (inject_Z (Z.of_nat n) == 0)%Q.
Proof.
  intros Hn Heq. unfold Qeq in Heq. simpl in Heq. lia.
Qed.

Lemma linspace_lookup start stop num i x :
  linspace start stop num !! i = Some x →
  (x == evenly_spaced_point start stop num i)%Q.
Proof.
  unfold evenly_spaced_point. destruct num as [|[|div]]; [done| |].
  - destruct i; [|done]. intros [= <-]. simpl. unfold Qdiv. simpl. ring.
  - unfold linspace. replace (S (S div) - 1) with (S div) by lia.
    pose proof (inject_nat_nonzero (S div) ltac:(lia)) as Hnz.
    intros Hi. apply lookup_app_Some in Hi as [Hi|[Hlen Hi]].
    + rewrite list_lookup_fmap in Hi.
      destruct (seq 0 (S div) !! i) as [k|] eqn:Hk; [|done].
      apply lookup_seq in Hk as [-> _]. injection Hi as <-.
      unfold lerp. simpl plus. field. exact Hnz.
    + rewrite length_map, length_seq in Hlen, Hi.
      destruct (i - S div) as [|?] eqn:Hd; [|done]. injection Hi as <-.
      assert (i = S div) as -> by lia. field. exact Hnz.
Qed.

Lemma linspace_first start stop (num : nat) :
  0 < num → linspace start stop num !! 0 = Some start ∨
            ∃ x, linspace start stop num !! 0 = Some x ∧ (x == start)%Q.
Proof.
  intros Hn. destruct num as [|[|div]]; [lia|by left|]. right.
  unfold linspace. simpl. eexists. split; [done|]. unfold lerp. simpl.
  unfold Qdiv. ring.
Qed.


(** ** Running on from a prepared state *)

Lemma bind_run {A B} (m : M A) (f : A → M B) t a :
  m = (t, inr a) → m ≫= f = (t ++ (f a).1, (f a).2).
Proof. intros ->. unfold mbind, M_bind. by destruct (f a). Qed.











(** ** The shape-derived fields (lines 42-53) *)



(** ** The position grid (lines 48-49) *)



(** ** Directories (lines 19-25) *)




(** ** Validation (lines 91-92) *)



Lemma events_before_check_quiet W v :
  forallb (λ ev, negb (logs_or_materializes ev)) (events_before_check W v) = true.
Proof. reflexivity. Qed.



Lemma forallb_fst {A B} (f : A → bool) (ws : list (A * B)) :
  forallb (λ w, f w.1) ws = forallb f ws.*1.
Proof. induction ws as [|[a b] ws IH]; simpl; [done|]. by rewrite IH. Qed.

Lemma forallb_fst_eq {A B} (f : A → bool) (ws : list (A * B)) l :
  ws.*1 = l → forallb f l = true → forallb (λ w, f w.1) ws = true.
Proof. intros <-. by rewrite forallb_fst. Qed.

Lemma prepared_has_key W conf v k :
  prepared W conf v → has_key k (rv_enf_cfg v) = has_key k (rv_loaded v).
Proof.
  intros Hprep. apply prepared_writes in Hprep as (ws & Hws & Hupd).
  eapply has_key_update_all; [done|].
  by apply (forallb_fst_eq (λ q, Nat.leb 2 (length q)) ws written_paths).
Qed.

Lemma prepared_frame W conf v p :
  prepared W conf v → unaffected p = true →
  select p (rv_enf_cfg v) = select p (rv_loaded v).
Proof.
  intros Hprep Hp. apply prepared_writes in Hprep as (ws & Hws & Hupd).
  eapply select_update_all_ne; [done|].
  by apply (forallb_fst_eq (λ q, negb (overlaps p q)) ws written_paths).
Qed.

(** The traces a run can leave, as far as the projections go. *)
Lemma run_trace W conf tr r :
  create_latent_dataset_from_checkpoint W conf = (tr, r) →
  (trainers_built tr = [] ∧ configs_seen tr = []) ∨
  ∃ v, prepared W conf v ∧
    files_loaded tr = [rv_file v] ∧
    trainers_built tr = [trainer_for (rv_enf_cfg v)] ∧
    ∀ c, c ∈ configs_seen tr → c = rv_enf_cfg v.
Proof.
  intros Hrun. apply run_has_view in Hrun.
  destruct Hrun as [tr e [->|[[f ->]|(f & d & ->)]]
                   |v e Hprep _|v e Hprep _ _|v name dir debug Hprep _ _ _ _].
  1-3: by left.
  all: right; exists v; split; [done|]; split; [done|]; split; [done|].
  all: intros c Hc; simpl in Hc.
  all: repeat (apply elem_of_cons in Hc as [Hc|Hc]; [done|]).
  all: by apply elem_of_nil in Hc.
Qed.

(** ** The trainer variant (lines 56-80) *)

(** C1.  Whenever a run builds a trainer, it is the Meta-SGD trainer if the
    configuration loaded from the checkpoint has a ["meta"] key and the
    plain auto-decoding trainer if it has none: the variant is a function of
    the loaded file alone.  Presence is what [in] tests at line 56: a key
    whose value is the missing marker [???] counts as absent. *)
Theorem trainer_follows_meta_section W conf tr r kind :
  create_latent_dataset_from_checkpoint W conf = (tr, r) →
  kind ∈ trainers_built tr →
  ∃ file loaded,
    files_loaded tr = [file] ∧
    load_yaml W file = Some loaded ∧
    kind = (if has_key "meta" loaded
            then MetaSGDAutoDecodingENFTrainerImage
            else AutoDecodingENFTrainerImage).
Proof.
  intros Hrun Hkind.
  apply run_trace in Hrun as [[Hnone _]|(v & Hprep & Hfiles & Htrainers & _)].
  { rewrite Hnone in Hkind. by apply not_elem_of_nil in Hkind. }
  rewrite Htrainers in Hkind. apply list_elem_of_singleton in Hkind as ->.
  exists (rv_file v), (rv_loaded v). split; [done|]. split; [by destruct Hprep|].
  unfold trainer_for. by rewrite (prepared_has_key _ _ _ _ Hprep).
Qed.

Lemma trainer_follows_meta_section_witness :
  ∃ file loaded,
    files_loaded (create_latent_dataset_from_checkpoint
                    (world_with saved_cfg_meta loader0) conf0).1 = [file] ∧
    load_yaml (world_with saved_cfg_meta loader0) file = Some loaded ∧
    MetaSGDAutoDecodingENFTrainerImage =
      (if has_key "meta" loaded
       then MetaSGDAutoDecodingENFTrainerImage
       else AutoDecodingENFTrainerImage).
Proof.
  eapply (trainer_follows_meta_section (world_with saved_cfg_meta loader0) conf0).
  - apply surjective_pairing.
  - vm_compute. apply list_elem_of_here.
Defined.

Lemma missing_meta_counts_as_absent :
  has_key "meta" saved_cfg_meta_missing = false ∧
  trainers_built (create_latent_dataset_from_checkpoint
                    (world_with saved_cfg_meta_missing loader0) conf0).1
  = [AutoDecodingENFTrainerImage].
Proof. split; vm_compute; reflexivity. Qed.







(** Stored values the frame does not speak about: an interpolation, whole
    or inside a string, and the missing marker. *)
Lemma interpolations_are_not_plain :
  plain_value (VStr "${dataset.name}") = false ∧
  plain_value (VStr "/data/${dataset.name}") = false ∧
  plain_value (VList [VStr "a"; VStr "${nef.num_in}"]) = false ∧
  plain_value (VStr "???") = false ∧
  plain_value (VStr "/data/$HOME") = true.
Proof. repeat split; reflexivity. Qed.




(** ** The experiment-tracking run (lines 95-102) *)



(** C4, as stated, fails: a complete run initialises the experiment-tracking
    run before it materialises the latent dataset. *)
Lemma logging_precedes_materialization :
  (create_latent_dataset_from_checkpoint world0 conf0).2 = inr tt ∧
  stages (create_latent_dataset_from_checkpoint world0 conf0).1 = actual_order ∧
  stages (create_latent_dataset_from_checkpoint world0 conf0).1 ≠ claimed_order.
Proof. split; [|split]; [vm_compute; reflexivity..|vm_compute; discriminate]. Qed.

(** C4, amended.  In every run the stages come in the order config merge,
    dataloader construction, trainer reconstruction, checkpoint restore,
    experiment logging, dataset materialization: the stages of a trace are
    a prefix of that list, and the whole list when the run completes. *)
Theorem stages_in_order W conf tr r :
  create_latent_dataset_from_checkpoint W conf = (tr, r) →
  stages tr `prefix_of` actual_order ∧ (r = inr tt → stages tr = actual_order).
Proof.
  intros Hrun. apply run_has_view in Hrun.
  destruct Hrun as [tr e [->|[[f ->]|(f & d & ->)]]
                   |v e Hprep _|v e Hprep _ _|v name dir debug Hprep _ _ _ _].
  all: split; [|done]; by eexists.
Qed.

Lemma stages_in_order_witness :
  stages (create_latent_dataset_from_checkpoint world0 conf0).1 `prefix_of` actual_order ∧
  ((create_latent_dataset_from_checkpoint world0 conf0).2 = inr tt →
   stages (create_latent_dataset_from_checkpoint world0 conf0).1 = actual_order).
Proof. apply (stages_in_order world0 conf0). apply surjective_pairing. Defined.

Lemma prepared_merge_done W conf v :
  prepared W conf v →
  merge_done W conf (rv_conf v) (rv_file v) (rv_loaded v) (rv_merged v).
Proof. intros [? ? ? ? _ _ _ _]. by constructor. Qed.



(** ** The dataloader call (lines 32-39) *)




(** ** The checkpoint directory (lines 20, 28-29) *)







(** ** Validation comes late (lines 56-92) *)




(** ** What the trainer and the latent-dataset routine receive
    (lines 56-80, 105) *)

(** X5.  Whichever trainer class is built, it is built once, with seed 42,
    the model and the two autodecoders that [get_model] returned for the
    very configuration it is given, the two loaders that [get_dataloader]
    returned, and the position grid of the first training sample's shape. *)
Theorem trainer_arguments W conf tr r kind c enf ad1 ad2 trainset testset coords seed :
  create_latent_dataset_from_checkpoint W conf = (tr, r) →
  ENewTrainer kind c enf ad1 ad2 trainset testset coords seed ∈ tr →
  seed = 42%Z ∧
  get_model W c = (enf, ad1, ad2) ∧
  EGetModel c ∈ tr ∧
  trainers_built tr = [kind] ∧
  (∃ d, dataloader_cfgs tr = [d] ∧ get_dataloader W d = (trainset, testset)) ∧
  (∃ smp, first_sample trainset = Some smp ∧
          create_position_grid (shape smp) = ([], inr coords)).
Proof.
  intros Hrun Hin. apply run_has_view in Hrun.
  assert (Hebc : ∀ v, prepared W conf v →
            ENewTrainer kind c enf ad1 ad2 trainset testset coords seed
              ∈ events_before_check W v →
            seed = 42%Z ∧ get_model W c = (enf, ad1, ad2) ∧ c = rv_enf_cfg v ∧
            kind = trainer_for (rv_enf_cfg v) ∧
            get_dataloader W (rv_dataset_cfg v) = (trainset, testset) ∧
            (∃ smp, first_sample trainset = Some smp ∧
                    create_position_grid (shape smp) = ([], inr coords))).
  { intros v Hprep Hev. unfold events_before_check, trainer_events in Hev. simpl in Hev.
    repeat (apply elem_of_cons in Hev as [Hev|Hev]; [try discriminate Hev|]).
    2: by apply elem_of_nil in Hev.
    injection Hev as -> -> -> -> -> -> -> -> ->.
    destruct Hprep as [_ _ _ _ _ Hshape Hcoords _].
    apply get_image_shape_inv in Hshape as (smp & Hsmp & Heq). rewrite Heq in Hcoords.
    split; [done|]. split; [by destruct (get_model W (rv_enf_cfg v)) as [[??]?]|].
    split; [done|]. split; [done|].
    split; [unfold rv_trainset, rv_testset; by destruct (get_dataloader W _)|].
    eauto. }
  destruct Hrun as [tr e [->|[[f ->]|(f & d & ->)]]
                   |v e Hprep _|v e Hprep _ _|v n dir debug Hprep _ _ _ _].
  - by apply elem_of_nil in Hin.
  - apply list_elem_of_singleton in Hin. discriminate Hin.
  - repeat (apply elem_of_cons in Hin as [Hin|Hin]; [discriminate Hin|]).
    by apply elem_of_nil in Hin.
  - destruct (Hebc v Hprep Hin) as (-> & Hm & -> & -> & Hdl & Hgrid).
    split; [done|]. split; [done|]. split; [|split; [done|split; [|done]]].
    + apply list_elem_of_further, list_elem_of_further, list_elem_of_here.
    + by exists (rv_dataset_cfg v).
  - destruct (Hebc v Hprep Hin) as (-> & Hm & -> & -> & Hdl & Hgrid).
    split; [done|]. split; [done|]. split; [|split; [done|split; [|done]]].
    + apply list_elem_of_further, list_elem_of_further, list_elem_of_here.
    + by exists (rv_dataset_cfg v).
  - apply elem_of_app in Hin as [Hin|Hin].
    2:{ repeat (apply elem_of_cons in Hin as [Hin|Hin]; [discriminate Hin|]).
        by apply elem_of_nil in Hin. }
    destruct (Hebc v Hprep Hin) as (-> & Hm & -> & -> & Hdl & Hgrid).
    split; [done|]. split; [done|]. split; [|split; [done|split; [|done]]].
    + apply list_elem_of_further, list_elem_of_further, list_elem_of_here.
    + by exists (rv_dataset_cfg v).
Qed.

Lemma trainer_arguments_witness :
  42%Z = 42%Z ∧
  get_model world0 (rv_enf_cfg values0) = (1, 2, 3)%nat ∧
  EGetModel (rv_enf_cfg values0) ∈ (create_latent_dataset_from_checkpoint world0 conf0).1 ∧
  trainers_built (create_latent_dataset_from_checkpoint world0 conf0).1
    = [AutoDecodingENFTrainerImage] ∧
  (∃ d, dataloader_cfgs (create_latent_dataset_from_checkpoint world0 conf0).1 = [d] ∧
        get_dataloader world0 d = (loader0, [])) ∧
  (∃ smp, first_sample loader0 = Some smp ∧
          create_position_grid (shape smp)
          = ([], inr (reshape_m1_2 (stack_last
                        (meshgrid (linspace (-1) 1 2) (linspace (-1) 1 3)))))).
Proof.
  eapply (trainer_arguments world0 conf0).
  - apply surjective_pairing.
  - vm_compute. do 3 apply list_elem_of_further. apply list_elem_of_here.
Defined.

(** X6.  The latent-dataset routine is called with the invocation's own
    configuration, in which the script has changed [checkpoint_dir] and
    [logging.log_dir] and nothing else, with the trainer that was built,
    and with the state [load_checkpoint] returned for it. *)
Theorem materialization_arguments W conf tr r c kind enf_state :
  create_latent_dataset_from_checkpoint W conf = (tr, r) →
  EGetOrCreateLatentDataset c kind enf_state ∈ tr →
  r = inr tt ∧
  trainers_built tr = [kind] ∧
  (∃ enf_cfg, EGetModel enf_cfg ∈ tr ∧ enf_state = load_checkpoint W kind enf_cfg) ∧
  ∀ p, overlaps p ["checkpoint_dir"] = false →
       overlaps p ["logging"; "log_dir"] = false →
       select p c = select p conf.
Proof.
  intros Hrun Hin. apply run_has_view in Hrun.
  destruct Hrun as [tr e [->|[[f ->]|(f & d & ->)]]
                   |v e Hprep _|v e Hprep _ _|v n dir debug Hprep _ _ _ _].
  1-5: repeat (apply elem_of_cons in Hin as [Hin|Hin]; [discriminate Hin|]);
       by apply elem_of_nil in Hin.
  apply elem_of_app in Hin as [Hin|Hin].
  { repeat (apply elem_of_cons in Hin as [Hin|Hin]; [discriminate Hin|]).
    by apply elem_of_nil in Hin. }
  repeat (apply elem_of_cons in Hin as [Hin|Hin]; [try discriminate Hin|]).
  2: by apply elem_of_nil in Hin.
  injection Hin as -> -> ->.
  split; [done|]. split; [done|]. split.
  - exists (rv_enf_cfg v). split; [|done].
    apply elem_of_app. left.
    apply list_elem_of_further, list_elem_of_further, list_elem_of_here.
  - intros p H1 H2. by apply (prepared_conf_frame W conf).
Qed.

Lemma materialization_arguments_witness :
  (create_latent_dataset_from_checkpoint world0 conf0).2 = inr tt ∧
  trainers_built (create_latent_dataset_from_checkpoint world0 conf0).1
    = [AutoDecodingENFTrainerImage] ∧
  (∃ enf_cfg,
     EGetModel enf_cfg ∈ (create_latent_dataset_from_checkpoint world0 conf0).1 ∧
     4%nat = load_checkpoint world0 AutoDecodingENFTrainerImage enf_cfg) ∧
  ∀ p, overlaps p ["checkpoint_dir"] = false →
       overlaps p ["logging"; "log_dir"] = false →
       select p (rv_conf values0) = select p conf0.
Proof.
  eapply (materialization_arguments world0 conf0).
  - apply surjective_pairing.
  - vm_compute. do 8 apply list_elem_of_further. apply list_elem_of_here.
Defined.

(** ** The grid stays in the square (lines 48-49) *)

Lemma evenly_spaced_point_bounds (num i : nat) :
  i < num →
  (-1 <= evenly_spaced_point (-1) 1 num i)%Q ∧ (evenly_spaced_point (-1) 1 num i <= 1)%Q.
Proof.
  intros Hi. unfold evenly_spaced_point.
  destruct (decide (num - 1 = 0)) as [->|Hd].
  { simpl. unfold Qdiv, Qle. simpl. lia. }
  set (d := num - 1) in *.
  assert (Hdq : (0 < inject_Z (Z.of_nat d))%Q).
  { unfold Qlt. simpl. lia. }
  assert (Hiq : (0 <= inject_Z (Z.of_nat i))%Q).
  { unfold Qle. simpl. lia. }
  assert (Hle : (inject_Z (Z.of_nat i) <= inject_Z (Z.of_nat d))%Q).
  { unfold Qle. simpl. lia. }
  assert (Hstep : (0 <= (1 - -1) / inject_Z (Z.of_nat d))%Q).
  { apply Qle_shift_div_l; [done|]. by rewrite Qmult_0_l. }
  split.
  - rewrite <- (Qplus_0_r (-1)) at 1. apply Qplus_le_r. by apply Qmult_le_0_compat.
  - apply Qle_trans
      with (-1 + inject_Z (Z.of_nat d) * ((1 - -1) / inject_Z (Z.of_nat d)))%Q.
    + apply Qplus_le_r. by apply Qmult_le_compat_r.
    + apply Qle_lteq. right. field.
      intros Hz. rewrite Hz in Hdq. by apply Qlt_irrefl in Hdq.
Qed.

Lemma linspace_bounds (num : nat) x :
  x ∈ linspace (-1) 1 num → (-1 <= x)%Q ∧ (x <= 1)%Q.
Proof.
  intros Hx. apply list_elem_of_lookup in Hx as [i Hi].
  pose proof (lookup_lt_Some _ _ _ Hi) as Hlt. rewrite linspace_length in Hlt.
  apply linspace_lookup in Hi. rewrite Hi. by apply evenly_spaced_point_bounds.
Qed.

Lemma grid_rows_elem xs ys row :
  row ∈ grid_rows xs ys → ∃ x y, x ∈ xs ∧ y ∈ ys ∧ row = [x; y].
Proof.
  unfold grid_rows. intros Hrow.
  apply list_elem_of_In, in_concat in Hrow as (l & Hl & Hrow).
  apply list_elem_of_In in Hl, Hrow.
  apply list_elem_of_fmap in Hl as (y & -> & Hy).
  apply list_elem_of_fmap in Hrow as (x & -> & Hx). eauto.
Qed.

(** X7.  Every coordinate of the position grid lies between -1 and 1,
    whatever the image shape. *)
Theorem grid_coordinates_bounded image_shape coords :
  create_position_grid image_shape = ([], inr coords) →
  Forall (Forall (λ x, (-1 <= x)%Q ∧ (x <= 1)%Q)) coords.
Proof.
  unfold create_position_grid. intros H. run_inv.
  rewrite reshape_stack_meshgrid. apply Forall_forall. intros row Hrow.
  apply grid_rows_elem in Hrow as (x & y & Hx & Hy & ->).
  repeat constructor; by eapply linspace_bounds.
Qed.

Lemma grid_coordinates_bounded_witness :
  Forall (Forall (λ x, (-1 <= x)%Q ∧ (x <= 1)%Q))
    (reshape_m1_2 (stack_last (meshgrid (linspace (-1) 1 2) (linspace (-1) 1 3)))).
Proof. apply (grid_coordinates_bounded [2; 3; 1]). reflexivity. Defined.

(** ** Failures on the way (lines 19-49) *)












(** ** A run that completes (lines 17-105) *)





(** ** The sections of the saved configuration (lines 28-56) *)




